(** * Order submission and completion polling (basemap ordering notebooks)

    A shallow embedding of [place_order] and [poll_for_success] from
    [jupyter-notebooks/orders_basemaps/requests_order_basemaps.ipynb],
    together with the JSON values they inspect and the effects they
    perform (HTTP requests, [print], [time.sleep]).

    The remote ordering service is the environment: the k-th call of
    [session.get] is answered by [service k], which either raises or
    returns a response.  The effects of a run are recorded in a trace. *)

From Stdlib Require Import List String ZArith Lia Bool Arith.
From Stdlib Require Import Floats.SpecFloat.
Import ListNotations.
Local Open Scope string_scope.
Local Open Scope list_scope.
Set Warnings "-register-all".

(** ** Python values obtained from JSON *)

Module Json.

(** What [r.json()] can return, and what an order packet is made of:
    [None], booleans, integers, floats, strings, lists and dicts
    (a dict keeps its items in insertion order). *)
Inductive value : Type :=
| JNull
| JBool (b : bool)
| JInt (n : Z)
| JFloat (f : spec_float)
| JStr (s : string)
| JList (items : list value)
| JDict (items : list (string * value)).

Fixpoint assoc (key : string) (items : list (string * value)) : option value :=
  match items with
  | [] => None
  | (k, v) :: rest => if String.eqb k key then Some v else assoc key rest
  end.

(** [x in ['a', 'b', ...]] for a list of strings: Python compares with
    [==], and only a string is equal to a string. *)
Definition in_strings (x : value) (l : list string) : bool :=
  match x with
  | JStr s => existsb (String.eqb s) l
  | _ => false
  end.

(** What [json.dumps(v, allow_nan=False)] accepts: a value that holds no
    infinite and no NaN float. *)
Fixpoint json_compliant (v : value) : bool :=
  match v with
  | JFloat (S754_infinity _) | JFloat S754_nan => false
  | JList items => forallb json_compliant items
  | JDict items =>
      forallb (fun kv => match kv with (_, x) => json_compliant x end) items
  | _ => true
  end.

End Json.
Import Json.

(** ** Responses, exceptions and the effect monad *)

(** A [requests.Response]: the status code and what [.json()] gives
    ([None] when the body is not JSON, in which case [.json()] raises). *)
Record Response : Type := mkResponse {
  status_code : Z;
  json_body : option value
}.

Inductive exn : Type :=
| RequestException (msg : string)  (* session.get / session.post failed on the wire *)
| HTTPError (resp : Response)      (* raise_for_status; carries the response *)
| JSONDecodeError                  (* .json() on a body that is not JSON *)
| KeyError (key : string)          (* d[key] on a dict without key *)
| TypeError                        (* subscript or + on a value of the wrong type *)
| UnboundLocalError (var : string).

(** What one HTTP call does. *)
Inductive http_outcome : Type :=
| Raises (msg : string)     (* the call raises RequestException(msg) *)
| Responds (resp : Response).

Inductive event : Type :=
| Get (k : nat)          (* the k-th session.get(order_url), k counted from 0 *)
| Post (payload : value) (* session.post(ORDERS_API_URL, json=payload) *)
| Print (v : value)      (* print(v) *)
| Sleep (secs : Z).      (* time.sleep(secs) *)

(** A computation emits events and then raises or yields a value. *)
Definition M (A : Type) : Type := (list event * (exn + A))%type.

Definition ret {A} (a : A) : M A := ([], inr a).
Definition raise {A} (e : exn) : M A := ([], inl e).
Definition emit (ev : event) : M unit := ([ev], inr tt).

Definition bind {A B} (m : M A) (f : A -> M B) : M B :=
  match m with
  | (t, inl e) => (t, inl e)
  | (t, inr a) => let (t', x) := f a in (t ++ t', x)
  end.

Notation "x <- m ;; k" := (bind m (fun x => k))
  (at level 61, m at next level, right associativity).
Notation "m ;;; k" := (bind m (fun _ => k))
  (at level 61, right associativity).

(** [r.json()] *)
Definition json (resp : Response) : M value :=
  match json_body resp with
  | Some v => ret v
  | None => raise JSONDecodeError
  end.

(** [v[key]] for a string key. *)
Definition subscript (v : value) (key : string) : M value :=
  match v with
  | JDict items =>
      match assoc key items with
      | Some x => ret x
      | None => raise (KeyError key)
      end
  | _ => raise TypeError
  end.

(** [prefix + v] for a string [prefix]. *)
Definition str_add (prefix : string) (v : value) : M string :=
  match v with
  | JStr s => ret (prefix ++ s)%string
  | _ => raise TypeError
  end.

Definition print (v : value) : M unit := emit (Print v).
Definition sleep (secs : Z) : M unit := emit (Sleep secs).

(** ** Placing an order *)

Definition ORDERS_API_URL : string := "https://api.planet.com/compute/ops/orders/v2".

Section Submission.

(** What a POST of an order packet meets: the answer of the ordering
    service, or an exception of the requests library. *)
Variable orders_api : value -> http_outcome.

(** [session.post(ORDERS_API_URL, json=payload, ...)].  requests encodes
    the payload with [allow_nan=False] before it sends anything, so a
    payload that holds an infinite or NaN float is never posted: the
    call raises without a request having been made. *)
Definition session_post (payload : value) : M Response :=
  _ <- (if json_compliant payload then emit (Post payload) else ret tt) ;;
  match orders_api payload with
  | Raises msg => raise (RequestException msg)
  | Responds resp => ret resp
  end.

(** [place_order(order_params, auth)] *)
Definition place_order (order_params : value) : M string :=
  response <- session_post order_params ;;
  body <- json response ;;
  order_id <- subscript body "id" ;;
  order_url <- str_add (ORDERS_API_URL ++ "/")%string order_id ;;
  ret order_url.

(** [resp.raise_for_status()] of the requests library: an [HTTPError]
    holding the response for a 4xx or 5xx status, nothing otherwise. *)
Definition raise_for_status (resp : Response) : M unit :=
  if ((400 <=? status_code resp) && (status_code resp <? 600))%Z
  then raise (HTTPError resp)
  else ret tt.

(** The cell "Send Request and Check Status Code", which posts the
    second order packet: [basemaps] is bound to the decoded body when
    the status is below 400, otherwise [raise_for_status] is called
    and [basemaps] is left as it was. *)
Definition send_request (order_params : value) (basemaps : value) : M value :=
  param_res <- session_post order_params ;;
  if (status_code param_res <? 400)%Z
  then json param_res
  else (raise_for_status param_res ;;; ret basemaps).

End Submission.

(** The input constraint on an order packet: at least one product
    descriptor and a non-empty delivery descriptor. *)
Definition valid_order_spec (order_params : value) : bool :=
  match order_params with
  | JDict items =>
      match assoc "products" items, assoc "delivery" items with
      | Some (JList (_ :: _)), Some (JDict (_ :: _)) => true
      | _, _ => false
      end
  | _ => false
  end.

(** ** Polling for completion *)

Definition end_states : list string := ["success"; "failed"; "partial"].

(** [state in end_states] *)
Definition in_end_states (state : value) : bool := in_strings state end_states.

Inductive outcome (A : Type) : Type :=
| Returned (a : A)   (* the call returned a *)
| Raised (e : exn)   (* the call raised e *)
| Running.           (* the loop is still going after the allotted iterations *)
Arguments Returned {A} a.
Arguments Raised {A} e.
Arguments Running {A}.

(** The local variables of [poll_for_success] that outlive an iteration.
    [r] is unbound until the first assignment. *)
Record locals : Type := mkLocals {
  v_state : value;
  v_r : option Response
}.

Inductive control : Type := Break | Next.

(** [r.json()['state']] without its effects: the state a response
    carries, or the exception raised on the way to it. *)
Definition state_of (resp : Response) : exn + value :=
  snd (response <- json resp ;; subscript response "state").

(** [r.json()['_links']['results']], the manifest of delivered artifacts. *)
Definition results_of (resp : Response) : exn + value :=
  snd (response <- json resp ;;
       links <- subscript response "_links" ;;
       subscript links "results").

Section Polling.

(** [service k] is what the k-th status query meets. *)
Variable service : nat -> http_outcome.

Definition session_get (k : nat) : M Response :=
  _ <- emit (Get k) ;;
  match service k with
  | Raises msg => raise (RequestException msg)
  | Responds resp => ret resp
  end.

(** One pass through the body of the [while] loop, as its k-th pass. *)
Definition loop_body (k : nat) : M (control * locals) :=
  r <- session_get k ;;
  response <- json r ;;
  state <- subscript response "state" ;;
  _ <- print state ;;
  if in_end_states state
  then ret (Break, mkLocals state (Some r))
  else (_ <- sleep 10 ;; ret (Next, mkLocals state (Some r))).

(** [return r] *)
Definition return_r (l : locals) : outcome Response :=
  match v_r l with
  | Some r => Returned r
  | None => Raised (UnboundLocalError "r")
  end.

(** [while state not in end_states: ...] followed by [return r];
    [fuel] bounds the number of passes that are followed, [k] is the
    number of status queries made so far. *)
Fixpoint while_loop (fuel k : nat) (l : locals) : list event * outcome Response :=
  if in_end_states (v_state l) then ([], return_r l)
  else
    match fuel with
    | O => ([], Running)
    | S fuel' =>
        match loop_body k with
        | (t, inl e) => (t, Raised e)
        | (t, inr (Break, l')) => (t, return_r l')
        | (t, inr (Next, l')) =>
            let (t', o) := while_loop fuel' (S k) l' in (t ++ t', o)
        end
    end.

(** [poll_for_success(order_url)] *)
Definition poll_for_success (fuel : nat) : list event * outcome Response :=
  while_loop fuel 0 (mkLocals (JStr "") None).

(** The state seen by the k-th status query, or the exception the
    query ends in. *)
Definition observed (k : nat) : exn + value :=
  match service k with
  | Raises msg => inl (RequestException msg)
  | Responds resp => state_of resp
  end.

End Polling.

(** ** Reading a trace *)

Definition is_get (ev : event) : bool :=
  match ev with Get _ => true | _ => false end.

(** Number of status queries in a trace. *)
Definition queries (t : list event) : nat := List.length (filter is_get t).

(** The notifications printed, oldest first. *)
Fixpoint printed (t : list event) : list value :=
  match t with
  | [] => []
  | Print v :: t' => v :: printed t'
  | _ :: t' => printed t'
  end.

(** For each notification, the seconds spent in [time.sleep] before it
    was printed; [since] is the time slept before the trace starts. *)
Fixpoint slept_before_prints (since : Z) (t : list event) : list Z :=
  match t with
  | [] => []
  | Print _ :: t' => since :: slept_before_prints since t'
  | Sleep secs :: t' => slept_before_prints (since + secs) t'
  | _ :: t' => slept_before_prints since t'
  end.

(** ** Stub services *)

Definition status_response (state : string) (results : list value) : Response :=
  mkResponse 200
    (Some (JDict [("state", JStr state);
                  ("_links", JDict [("results", JList results)])])).

(** A service that answers the successive queries from [answers] and
    every later one with [rest]. *)
Definition stub (answers : list http_outcome) (rest : http_outcome) : nat -> http_outcome :=
  fun k => nth k answers rest.

Definition artifact (name : string) : value := JDict [("name", JStr name)].

Definition manifest_response : Response :=
  status_response "success" [artifact "basemaps-to-cloud/manifest.json"].

Definition queued_running_running_success : nat -> http_outcome :=
  stub [Responds (status_response "queued" []);
        Responds (status_response "running" []);
        Responds (status_response "running" []);
        Responds manifest_response]
       (Responds manifest_response).

Definition always_running : nat -> http_outcome :=
  fun _ => Responds (status_response "running" []).


(** A service whose second query fails on the wire. *)
Definition fails_on_second : nat -> http_outcome :=
  stub [Responds (status_response "queued" []); Raises "connection reset"]
       (Responds manifest_response).

(** Two queries that see [running], then [success]. *)
Definition running_running_success : nat -> http_outcome :=
  stub [Responds (status_response "running" []);
        Responds (status_response "running" [])]
       (Responds manifest_response).

(** ** An order packet and a service that rejects it *)

Definition coordinate (lon lat : spec_float) : value := JList [JFloat lon; JFloat lat].

(** The first [order_params] of the notebook ("basemap order with
    geometry"); the floats are the binary64 values of the literals. *)
Definition order_params (GCP_CREDENTIALS : value) : value :=
  let west := S754_finite false 5187477986186147 (-50) in   (* 4.607406 *)
  let east := S754_finite false 5269217193523015 (-50) in   (* 4.680005 *)
  let south := S754_finite false 7368169620929912 (-47) in  (* 52.353994 *)
  let north := S754_finite false 7374014308083820 (-47) in  (* 52.395523 *)
  JDict
    [("name", JStr "basemap order with geometry");
     ("source_type", JStr "basemaps");
     ("order_type", JStr "partial");
     ("products",
      JList
        [JDict
           [("mosaic_name", JStr "global_monthly_2022_01_mosaic");
            ("geometry",
             JDict
               [("type", JStr "Polygon");
                ("coordinates",
                 JList
                   [JList
                      [coordinate west south; coordinate east south;
                       coordinate east north; coordinate west north;
                       coordinate west south]])])]]);
     ("tools", JList [JDict [("merge", JDict [])]; JDict [("clip", JDict [])]]);
     ("delivery",
      JDict
        [("google_cloud_storage",
          JDict
            [("bucket", JStr "devrel-notebooks");
             ("credentials", GCP_CREDENTIALS);
             ("path_prefix", JStr "basemaps-to-cloud/")])])].

(** The body of a rejection: a JSON object that describes the error
    and has no ["id"]. *)
Definition rejection_body : value :=
  JDict
    [("field", JDict [("Delivery", JList [JDict [("message", JStr "invalid credentials")]])]);
     ("general", JList [JDict [("message", JStr "Unable to accept order")]])].

Definition rejection : Response := mkResponse 400 (Some rejection_body).

(** An ordering service that rejects every order packet. *)
Definition rejecting_api : value -> http_outcome := fun _ => Responds rejection.

(** An ordering service that accepts every order packet under one id. *)
Definition accepting_api (order_id : string) : value -> http_outcome :=
  fun _ => Responds (mkResponse 202 (Some (JDict [("id", JStr order_id)]))).

(** ** The traces a run can leave *)

(** The events of one pass that saw the non-terminal state [v] at
    query [k]. *)
Definition pass (k : nat) (v : value) : list event := [Get k; Print v; Sleep 10].

(** Consecutive passes starting at query [k], one per state of [vs]. *)
Fixpoint passes (k : nat) (vs : list value) : list event :=
  match vs with
  | [] => []
  | v :: vs' => pass k v ++ passes (S k) vs'
  end.

(** The queries [k], [k+1], ... observe the states [vs], in this order. *)
Definition observes (service : nat -> http_outcome) (k : nat) (vs : list value) : Prop :=
  Forall2 (fun i v => observed service i = inr v) (seq k (List.length vs)) vs.

Definition nonterminal (v : value) : Prop := in_end_states v = false.

(** ** Listing what an order delivered, and the quads of a mosaic *)

Definition newline : string := String (Ascii.ascii_of_nat 10) EmptyString.

(** [for x in v]: the items of a list, the keys of a dict, the
    characters of a string; no other value is iterable. *)
Definition iterate (v : value) : M (list value) :=
  match v with
  | JList items => ret items
  | JDict items => ret (map (fun kv => JStr (fst kv)) items)
  | JStr s =>
      ret (map (fun c => JStr (String c EmptyString)) (list_ascii_of_string s))
  | _ => raise TypeError
  end.

(** [[x[key] for x in items]], evaluated from left to right. *)
Fixpoint comprehension (key : string) (items : list value) : M (list value) :=
  match items with
  | [] => ret []
  | x :: rest =>
      y <- subscript x key ;;
      ys <- comprehension key rest ;;
      ret (y :: ys)
  end.

Fixpoint strings_of (vs : list value) : option (list string) :=
  match vs with
  | [] => Some []
  | JStr s :: rest => option_map (cons s) (strings_of rest)
  | _ :: _ => None
  end.

(** [sep.join(vs)]: every item has to be a string. *)
Definition join (sep : string) (vs : list value) : M string :=
  match strings_of vs with
  | Some ss => ret (String.concat sep ss)
  | None => raise TypeError
  end.

(** The lines that list the results of a response [resp]:
    [response = resp.json()],
    [results = response['_links']['results']],
    [print("\n".join([r['name'] for r in results]))]. *)
Definition show_results (resp : Response) : M unit :=
  response <- json resp ;;
  links <- subscript response "_links" ;;
  results <- subscript links "results" ;;
  items <- iterate results ;;
  names <- comprehension "name" items ;;
  text <- join newline names ;;
  print (JStr text).

(** The cell that polls once more and lists the results:
    [response = poll_for_success(order_url).json()] and the two lines
    of [show_results]. *)
Definition results_cell (service : nat -> http_outcome) (fuel : nat)
  : list event * outcome unit :=
  match poll_for_success service fuel with
  | (t, Returned r) =>
      match show_results r with
      | (t', inr _) => (t ++ t', Returned tt)
      | (t', inl e) => (t ++ t', Raised e)
      end
  | (t, Raised e) => (t, Raised e)
  | (t, Running) => (t, Running)
  end.

(** The end of the cell that looks up the quads of a mosaic:
    [quads = quad_service_response.json()], [items = quads['items']],
    [quad_ids = [i['id'] for i in items]]. *)
Definition quad_ids_of (quad_service_response : Response) : M (list value) :=
  quads <- json quad_service_response ;;
  items <- subscript quads "items" ;;
  its <- iterate items ;;
  comprehension "id" its.

(** Seconds spent in [time.sleep] over a trace. *)
Fixpoint total_slept (t : list event) : Z :=
  match t with
  | [] => 0
  | Sleep secs :: t' => secs + total_slept t'
  | _ :: t' => total_slept t'
  end.

(** The same answer under another status code. *)
Definition with_status (g : Z -> Z) (o : http_outcome) : http_outcome :=
  match o with
  | Raises msg => Raises msg
  | Responds resp => Responds (mkResponse (g (status_code resp)) (json_body resp))
  end.

(** A response of the quads endpoint that lists the given quad ids. *)
Definition quads_response (ids : list string) : Response :=
  mkResponse 200
    (Some (JDict [("items",
                   JList (map (fun id => JDict [("id", JStr id); ("percent_covered", JInt 100)]) ids))])).

(** A service whose first answer is an error page. *)
Definition unauthorized : nat -> http_outcome :=
  stub [Responds (mkResponse 401 (Some (JDict [("message", JStr "Please enter your API key")])))]
       (Responds manifest_response).

(** * Facts about the embedding *)

Lemma in_end_states_iff (v : value) :
  in_end_states v = true <->
  v = JStr "success" \/ v = JStr "failed" \/ v = JStr "partial".
Proof.
  unfold in_end_states, in_strings, end_states. split.
  - destruct v as [| | | |s| |]; try discriminate. simpl.
    destruct (String.eqb_spec s "success") as [->|_]; [now left|].
    destruct (String.eqb_spec s "failed") as [->|_]; [now right; left|].
    destruct (String.eqb_spec s "partial") as [->|_]; [now right; right|].
    discriminate.
  - intros [-> | [-> | ->]]; reflexivity.
Qed.

(** [state = ''] makes the loop condition hold. *)
Lemma initially_nonterminal : nonterminal (v_state (mkLocals (JStr "") None)).
Proof. reflexivity. Qed.

Lemma queries_app (t1 t2 : list event) :
  queries (t1 ++ t2) = queries t1 + queries t2.
Proof. unfold queries. now rewrite filter_app, length_app. Qed.

Lemma printed_app (t1 t2 : list event) :
  printed (t1 ++ t2) = printed t1 ++ printed t2.
Proof.
  induction t1 as [|ev t1 IH]; [reflexivity|].
  destruct ev; simpl; now rewrite IH.
Qed.

Lemma queries_passes (k : nat) (vs : list value) :
  queries (passes k vs) = List.length vs.
Proof.
  revert k. induction vs as [|v vs IH]; intros k; [reflexivity|].
  change (passes k (v :: vs)) with (pass k v ++ passes (S k) vs).
  rewrite queries_app, IH. reflexivity.
Qed.

Lemma printed_passes (k : nat) (vs : list value) :
  printed (passes k vs) = vs.
Proof.
  revert k. induction vs as [|v vs IH]; intros k; [reflexivity|].
  simpl. now rewrite IH.
Qed.

Lemma gets_passes (k : nat) (vs : list value) :
  filter is_get (passes k vs) = map Get (seq k (List.length vs)).
Proof.
  revert k. induction vs as [|v vs IH]; intros k; [reflexivity|].
  simpl. now rewrite IH.
Qed.

Section PollingFacts.

Variable service : nat -> http_outcome.

(** The body of the loop, case by case on what the query meets. *)
Lemma loop_body_cases (k : nat) :
  loop_body service k =
  match service k with
  | Raises msg => ([Get k], inl (RequestException msg))
  | Responds r =>
      match state_of r with
      | inl e => ([Get k], inl e)
      | inr state =>
          if in_end_states state
          then ([Get k; Print state], inr (Break, mkLocals state (Some r)))
          else (pass k state, inr (Next, mkLocals state (Some r)))
      end
  end.
Proof.
  unfold loop_body, session_get, state_of, json, pass.
  destruct (service k) as [msg|r]; simpl; [reflexivity|].
  destruct (json_body r) as [body|]; simpl; [|reflexivity].
  destruct body as [| | | | |items|items]; simpl; try reflexivity.
  destruct (assoc "state" items) as [state|]; simpl; [|reflexivity].
  destruct (in_end_states state); reflexivity.
Qed.

(** One unfolding of the loop when the condition holds. *)
Lemma while_loop_step (fuel k : nat) (l : locals) :
  nonterminal (v_state l) ->
  while_loop service (S fuel) k l =
  match observed service k, service k with
  | inr state, Responds r =>
      if in_end_states state then ([Get k; Print state], Returned r)
      else let (t', o) := while_loop service fuel (S k) (mkLocals state (Some r))
           in (pass k state ++ t', o)
  | inl e, _ => ([Get k], Raised e)
  | inr _, Raises msg => ([Get k], Raised (RequestException msg))
  end.
Proof.
  intros Hl. unfold nonterminal in Hl. simpl. rewrite Hl, loop_body_cases.
  unfold observed. destruct (service k) as [msg|r]; [reflexivity|].
  destruct (state_of r) as [e|state]; [reflexivity|].
  destruct (in_end_states state); reflexivity.
Qed.

(** Every run is a sequence of non-terminal passes followed by: a
    last query that saw a terminal state (the call returns its
    response), or a last query that raised, or nothing when the
    allotted passes are used up. *)
Lemma while_loop_shape (fuel : nat) :
  forall (k : nat) (l : locals),
    nonterminal (v_state l) ->
    exists vs : list value,
      Forall nonterminal vs /\ observes service k vs /\
      let m := List.length vs + k in
      let (t, o) := while_loop service fuel k l in
      match o with
      | Returned r =>
          exists v, service m = Responds r /\ observed service m = inr v /\
                    in_end_states v = true /\
                    t = passes k vs ++ [Get m; Print v]
      | Raised e => observed service m = inl e /\ t = passes k vs ++ [Get m]
      | Running => List.length vs = fuel /\ t = passes k vs
      end.
Proof.
  induction fuel as [|fuel IH]; intros k l Hl.
  - exists []. repeat split; try constructor.
    simpl. rewrite Hl. split; reflexivity.
  - rewrite (while_loop_step fuel k l Hl).
    destruct (observed service k) as [e|state] eqn:Hobs.
    + exists []. repeat split; try constructor. simpl. auto.
    + destruct (service k) as [msg|r] eqn:Hsvc.
      { unfold observed in Hobs. rewrite Hsvc in Hobs. discriminate. }
      destruct (in_end_states state) eqn:Hend.
      * exists []. repeat split; try constructor. simpl.
        exists state. auto.
      * destruct (IH (S k) (mkLocals state (Some r)) Hend)
          as (vs & Hvs & Hobsvs & Hrun).
        exists (state :: vs). split; [now constructor|].
        split; [now constructor|].
        cbn zeta in Hrun |- *.
        replace (List.length (state :: vs) + k) with (List.length vs + S k)
          by (simpl; lia).
        destruct (while_loop service fuel (S k) (mkLocals state (Some r)))
          as [t' o].
        destruct o as [r'|e|].
        -- destruct Hrun as (v & H1 & H2 & H3 & ->).
           exists v. repeat split; auto.
        -- destruct Hrun as (H1 & ->). split; auto.
        -- destruct Hrun as (H1 & ->). split; [simpl; lia|auto].
Qed.

Lemma poll_for_success_shape (fuel : nat) :
  exists vs : list value,
    Forall nonterminal vs /\ observes service 0 vs /\
    let m := List.length vs in
    let (t, o) := poll_for_success service fuel in
    match o with
    | Returned r =>
        exists v, service m = Responds r /\ observed service m = inr v /\
                  in_end_states v = true /\
                  t = passes 0 vs ++ [Get m; Print v]
    | Raised e => observed service m = inl e /\ t = passes 0 vs ++ [Get m]
    | Running => m = fuel /\ t = passes 0 vs
    end.
Proof.
  destruct (while_loop_shape fuel 0 _ initially_nonterminal)
    as (vs & H1 & H2 & H3).
  exists vs. rewrite Nat.add_0_r in H3. auto.
Qed.

End PollingFacts.

(** ** Runs determined by what the queries observe *)

Section Runs.

Variable service : nat -> http_outcome.

Lemma observed_inr (k : nat) (v : value) :
  observed service k = inr v ->
  exists r, service k = Responds r /\ state_of r = inr v.
Proof.
  unfold observed. destruct (service k) as [msg|r]; [discriminate|].
  intros H. now exists r.
Qed.

Lemma observed_of_response (k : nat) (r : Response) :
  service k = Responds r -> observed service k = state_of r.
Proof. unfold observed. now intros ->. Qed.

(** What a query ends in is never an unbound local variable. *)
Lemma observed_inl (k : nat) (e : exn) :
  observed service k = inl e ->
  (exists msg, e = RequestException msg) \/ e = JSONDecodeError \/
  e = KeyError "state" \/ e = TypeError.
Proof.
  unfold observed, state_of, json.
  destruct (service k) as [msg|r].
  - intros [= <-]. left. now exists msg.
  - destruct (json_body r) as [body|]; simpl.
    + destruct body as [| | | | |items|items]; simpl;
        try (intros [= <-]; now right; right; right).
      destruct (assoc "state" items); simpl; [discriminate|].
      intros [= <-]. now right; right; left.
    + intros [= <-]. now right; left.
Qed.

(** Once the loop condition holds, the values of the locals no longer
    matter: the body assigns both before it reads them. *)
Lemma while_loop_locals (fuel k : nat) (l l' : locals) :
  nonterminal (v_state l) -> nonterminal (v_state l') ->
  while_loop service fuel k l = while_loop service fuel k l'.
Proof.
  intros Hl Hl'. destruct fuel as [|fuel].
  - simpl. unfold nonterminal in *. now rewrite Hl, Hl'.
  - now rewrite !while_loop_step.
Qed.

(** A run goes through the non-terminal states it observes, one pass
    each, and carries on from there. *)
Lemma while_loop_passes (vs : list value) :
  forall (fuel k : nat) (l : locals),
    nonterminal (v_state l) ->
    Forall nonterminal vs -> observes service k vs ->
    while_loop service (List.length vs + fuel) k l =
    let (t, o) := while_loop service fuel (List.length vs + k) l in
    (passes k vs ++ t, o).
Proof.
  induction vs as [|v vs IH]; intros fuel k l Hl Hvs Hobs.
  - simpl List.length. simpl passes. simpl plus.
    now destruct (while_loop service fuel k l).
  - inversion Hvs as [|? ? Hv Hvs']; subst.
    unfold observes in Hobs. simpl in Hobs.
    inversion Hobs as [|? ? ? ? Hk Hrest]; subst.
    destruct (observed_inr _ _ Hk) as (r & Hsvc & _).
    change (List.length (v :: vs) + fuel) with (S (List.length vs + fuel)).
    rewrite (while_loop_step service _ k l Hl), Hk, Hsvc.
    unfold nonterminal in Hv. rewrite Hv.
    rewrite (IH fuel (S k) (mkLocals v (Some r)) Hv Hvs' Hrest).
    replace (List.length (v :: vs) + k) with (List.length vs + S k)
      by (simpl; lia).
    rewrite (while_loop_locals fuel _ (mkLocals v (Some r)) l Hv Hl).
    destruct (while_loop service fuel (List.length vs + S k) l) as [t o].
    simpl. reflexivity.
Qed.

(** The run that ends at a terminal observation, for every allotment
    of passes that reaches it. *)
Lemma poll_for_success_completes (vs : list value) (v : value) (r : Response) :
  Forall nonterminal vs -> observes service 0 vs ->
  service (List.length vs) = Responds r ->
  state_of r = inr v -> in_end_states v = true ->
  forall fuel, List.length vs < fuel ->
    poll_for_success service fuel =
    (passes 0 vs ++ [Get (List.length vs); Print v], Returned r).
Proof.
  intros Hvs Hobs Hsvc Hst Hend fuel Hfuel.
  unfold poll_for_success.
  replace fuel with (List.length vs + S (fuel - S (List.length vs))) by lia.
  rewrite (while_loop_passes vs _ 0 _ initially_nonterminal Hvs Hobs).
  rewrite Nat.add_0_r.
  rewrite (while_loop_step service _ _ _ initially_nonterminal).
  rewrite (observed_of_response _ _ Hsvc), Hst, Hsvc, Hend.
  reflexivity.
Qed.

(** The run that ends at a query which raises. *)
Lemma poll_for_success_raises (vs : list value) (e : exn) :
  Forall nonterminal vs -> observes service 0 vs ->
  observed service (List.length vs) = inl e ->
  forall fuel, List.length vs < fuel ->
    poll_for_success service fuel =
    (passes 0 vs ++ [Get (List.length vs)], Raised e).
Proof.
  intros Hvs Hobs He fuel Hfuel.
  unfold poll_for_success.
  replace fuel with (List.length vs + S (fuel - S (List.length vs))) by lia.
  rewrite (while_loop_passes vs _ 0 _ initially_nonterminal Hvs Hobs).
  rewrite Nat.add_0_r.
  rewrite (while_loop_step service _ _ _ initially_nonterminal), He.
  reflexivity.
Qed.

Lemma observes_snoc (k : nat) (vs : list value) (v : value) :
  observes service k vs ->
  observed service (List.length vs + k) = inr v ->
  observes service k (vs ++ [v]).
Proof.
  unfold observes. intros Hvs Hv.
  rewrite length_app, seq_app. simpl.
  apply Forall2_app; [assumption|].
  constructor; [|constructor]. now rewrite Nat.add_comm.
Qed.

End Runs.

Section NeverTerminal.

Variable service : nat -> http_outcome.

(** Every query answers, and with a non-terminal state. *)
Hypothesis never_terminal :
  forall k, exists v, observed service k = inr v /\ in_end_states v = false.

Lemma while_loop_keeps_running (fuel : nat) :
  forall (k : nat) (l : locals),
    nonterminal (v_state l) ->
    exists vs, List.length vs = fuel /\
               while_loop service fuel k l = (passes k vs, Running).
Proof.
  induction fuel as [|fuel IH]; intros k l Hl.
  - exists []. split; [reflexivity|]. simpl. now rewrite Hl.
  - destruct (never_terminal k) as (v & Hobs & Hv).
    destruct (observed_inr service k v Hobs) as (r & Hsvc & _).
    destruct (IH (S k) (mkLocals v (Some r)) Hv) as (vs & Hlen & Hrun).
    exists (v :: vs). split; [simpl; now rewrite Hlen|].
    rewrite (while_loop_step service fuel k l Hl), Hobs, Hsvc, Hv, Hrun.
    reflexivity.
Qed.

End NeverTerminal.

(** * The claims *)

(** C1.  Whenever [poll_for_success] returns, the response it returns
    carries a terminal state, one of 'success', 'failed' and 'partial',
    and that state is the last one observed (the last one printed): the
    call never returns on 'queued', 'running' or any other value. *)
Theorem poll_for_success_returns_terminal
    (service : nat -> http_outcome) (fuel : nat) (t : list event) (r : Response) :
  poll_for_success service fuel = (t, Returned r) ->
  exists s,
    state_of r = inr (JStr s) /\
    (s = "success" \/ s = "failed" \/ s = "partial") /\
    exists t', t = t' ++ [Print (JStr s)].
Proof.
  intros Hrun.
  destruct (poll_for_success_shape service fuel) as (vs & _ & _ & H).
  rewrite Hrun in H. destruct H as (v & Hsvc & Hobs & Hend & ->).
  rewrite (observed_of_response service _ r Hsvc) in Hobs.
  apply in_end_states_iff in Hend.
  assert (Hs : exists s, v = JStr s /\
                         (s = "success" \/ s = "failed" \/ s = "partial")).
  { destruct Hend as [-> | [-> | ->]]; eexists; split; eauto. }
  destruct Hs as (s & -> & Hs).
  exists s. repeat split; [assumption..|].
  exists (passes 0 vs ++ [Get (List.length vs)]).
  now rewrite <- app_assoc.
Qed.

Lemma poll_for_success_returns_terminal_witness :
  exists s,
    state_of manifest_response = inr (JStr s) /\
    (s = "success" \/ s = "failed" \/ s = "partial") /\
    exists t',
      fst (poll_for_success queued_running_running_success 4) =
      t' ++ [Print (JStr s)].
Proof.
  apply (poll_for_success_returns_terminal queued_running_running_success 4).
  reflexivity.
Defined.

(** C2.  Against a service whose first four status responses carry
    'queued', 'running', 'running' and 'success', [poll_for_success]
    makes exactly four status queries and returns the fourth response,
    the one with state 'success' and its results. *)
Theorem poll_for_success_queued_running_running_success
    (service : nat -> http_outcome) (r1 r2 r3 r4 : Response) :
  service 0 = Responds r1 -> state_of r1 = inr (JStr "queued") ->
  service 1 = Responds r2 -> state_of r2 = inr (JStr "running") ->
  service 2 = Responds r3 -> state_of r3 = inr (JStr "running") ->
  service 3 = Responds r4 -> state_of r4 = inr (JStr "success") ->
  forall fuel, 4 <= fuel ->
    poll_for_success service fuel =
    ([Get 0; Print (JStr "queued"); Sleep 10;
      Get 1; Print (JStr "running"); Sleep 10;
      Get 2; Print (JStr "running"); Sleep 10;
      Get 3; Print (JStr "success")],
     Returned r4) /\
    queries (fst (poll_for_success service fuel)) = 4.
Proof.
  intros S1 Q1 S2 Q2 S3 Q3 S4 Q4 fuel Hfuel.
  assert (Hrun :
    poll_for_success service fuel =
    (passes 0 [JStr "queued"; JStr "running"; JStr "running"] ++
       [Get 3; Print (JStr "success")], Returned r4)).
  { apply poll_for_success_completes.
    - repeat constructor.
    - unfold observes. simpl.
      repeat constructor;
        erewrite observed_of_response by eassumption; assumption.
    - exact S4.
    - exact Q4.
    - reflexivity.
    - simpl. lia. }
  rewrite Hrun. split; reflexivity.
Qed.

Lemma poll_for_success_queued_running_running_success_witness :
  poll_for_success queued_running_running_success 4 =
  ([Get 0; Print (JStr "queued"); Sleep 10;
    Get 1; Print (JStr "running"); Sleep 10;
    Get 2; Print (JStr "running"); Sleep 10;
    Get 3; Print (JStr "success")],
   Returned manifest_response) /\
  queries (fst (poll_for_success queued_running_running_success 4)) = 4.
Proof.
  apply (poll_for_success_queued_running_running_success
           queued_running_running_success
           (status_response "queued" []) (status_response "running" [])
           (status_response "running" []) manifest_response);
    solve [reflexivity | lia].
Defined.

(** C3.  [poll_for_success] has no bound on the number of polls: against
    the service that always answers 'running', the fourth query is made
    after three non-terminal ones, and after any number of passes the
    call has made that many queries and has neither returned nor
    raised. *)
Theorem poll_for_success_has_no_attempt_bound :
  poll_for_success always_running 4 =
  ([Get 0; Print (JStr "running"); Sleep 10;
    Get 1; Print (JStr "running"); Sleep 10;
    Get 2; Print (JStr "running"); Sleep 10;
    Get 3; Print (JStr "running"); Sleep 10],
   Running) /\
  forall n,
    snd (poll_for_success always_running n) = Running /\
    queries (fst (poll_for_success always_running n)) = n.
Proof.
  split; [reflexivity|].
  intros n.
  assert (H : forall k, exists v,
             observed always_running k = inr v /\ in_end_states v = false).
  { intros k. exists (JStr "running"). split; reflexivity. }
  destruct (while_loop_keeps_running always_running H n 0 _ initially_nonterminal)
    as (vs & Hlen & Hrun).
  unfold poll_for_success. rewrite Hrun. simpl.
  now rewrite queries_passes.
Qed.

(** C4.  When the second status query fails on the wire, after a first
    one that saw a non-terminal state, [poll_for_success] raises that
    exception at once: the run has two queries, no third one and no
    retry, however many passes are allotted. *)
Theorem poll_for_success_propagates_transport_error
    (service : nat -> http_outcome) (v : value) (msg : string) :
  observed service 0 = inr v -> in_end_states v = false ->
  service 1 = Raises msg ->
  forall fuel, 2 <= fuel ->
    poll_for_success service fuel =
    ([Get 0; Print v; Sleep 10; Get 1], Raised (RequestException msg)) /\
    queries (fst (poll_for_success service fuel)) = 2.
Proof.
  intros Hobs Hv Hsvc fuel Hfuel.
  assert (Hrun :
    poll_for_success service fuel =
    (passes 0 [v] ++ [Get 1], Raised (RequestException msg))).
  { apply (poll_for_success_raises service [v]).
    - now constructor.
    - unfold observes. simpl. now repeat constructor.
    - unfold observed. simpl. now rewrite Hsvc.
    - simpl. lia. }
  rewrite Hrun. split; reflexivity.
Qed.

Lemma poll_for_success_propagates_transport_error_witness :
  poll_for_success fails_on_second 7 =
  ([Get 0; Print (JStr "queued"); Sleep 10; Get 1],
   Raised (RequestException "connection reset")) /\
  queries (fst (poll_for_success fails_on_second 7)) = 2.
Proof.
  apply (poll_for_success_propagates_transport_error
           fails_on_second (JStr "queued") "connection reset");
    solve [reflexivity | lia].
Defined.

(** C5.  [place_order] does not look at the status of the response: when
    the service rejects a valid order packet with status 400 and a JSON
    body without an id, it raises [KeyError('id')], which does not hold
    the response body, whereas the cell that posts the second packet
    raises an [HTTPError] holding the response. *)
Theorem place_order_rejected_raises_KeyError :
  valid_order_spec (order_params JNull) = true /\
  place_order rejecting_api (order_params JNull) =
    ([Post (order_params JNull)], inl (KeyError "id")) /\
  send_request rejecting_api (order_params JNull) JNull =
    ([Post (order_params JNull)], inl (HTTPError rejection)).
Proof. repeat split. Qed.

(** What [place_order] does when the order is accepted. *)
Lemma place_order_accepted (order_id : string) (packet : value) :
  json_compliant packet = true ->
  place_order (accepting_api order_id) packet =
  ([Post packet], inr (ORDERS_API_URL ++ "/" ++ order_id)%string).
Proof.
  intros Hp. unfold place_order, session_post. rewrite Hp. reflexivity.
Qed.

(** C6, as stated, fails: the notifications of [poll_for_success] are
    the bare states.  Two 'running' notifications printed ten seconds
    of sleep apart are the same value, so no elapsed time can be read
    off a notification. *)
Lemma notifications_do_not_carry_elapsed_time :
  let t := fst (poll_for_success running_running_success 3) in
  printed t = [JStr "running"; JStr "running"; JStr "success"] /\
  slept_before_prints 0 t = [0; 10; 20]%Z /\
  ~ exists elapsed_of : value -> Z,
      map elapsed_of (printed t) = slept_before_prints 0 t.
Proof.
  cbv zeta. repeat split.
  intros [elapsed_of H]. vm_compute in H.
  injection H as H0 H10 _. rewrite H0 in H10. discriminate.
Qed.

(** C6, amended.  [poll_for_success] prints one notification, the state
    itself, for each status query that yields a state, in query order
    and with repeats: the i-th value printed is the state observed by
    the i-th query, the queries are numbered consecutively, and there
    are as many queries as notifications, plus one when the last query
    raised. *)
Theorem poll_for_success_prints_each_observed_state
    (service : nat -> http_outcome) (fuel : nat) :
  let (t, o) := poll_for_success service fuel in
  observes service 0 (printed t) /\
  filter is_get t = map Get (seq 0 (queries t)) /\
  match o with
  | Raised _ => queries t = S (List.length (printed t))
  | _ => queries t = List.length (printed t)
  end.
Proof.
  destruct (poll_for_success_shape service fuel) as (vs & _ & Hobs & H).
  cbv zeta in H.
  destruct (poll_for_success service fuel) as [t o].
  destruct o as [r|e|].
  - destruct H as (v & _ & Hv & _ & ->).
    rewrite printed_app, printed_passes, queries_app, queries_passes.
    rewrite filter_app, gets_passes. simpl.
    repeat split.
    + apply observes_snoc; [assumption|]. now rewrite Nat.add_0_r.
    + now rewrite seq_app, map_app.
    + now rewrite length_app.
  - destruct H as (_ & ->).
    rewrite printed_app, printed_passes, queries_app, queries_passes.
    rewrite filter_app, gets_passes. simpl.
    rewrite app_nil_r. repeat split.
    + assumption.
    + now rewrite seq_app, map_app.
    + unfold queries. simpl. lia.
  - destruct H as (_ & ->).
    rewrite printed_passes, queries_passes, gets_passes.
    repeat split. assumption.
Qed.

(** C7.  Each pass of the loop makes exactly one status query.  A run
    consists of passes [Get k; Print v; Sleep 10] over non-terminal
    states [v], numbered consecutively from 0, and ends in one of three
    ways: with a query that sees a terminal state, which is printed and
    whose response is returned at once, without a sleep; with a query
    that raises; or, when the allotted passes are used up, after the
    sleep of the last pass.  So a ten-second sleep follows every
    non-terminal observation and none follows a terminal one. *)
Theorem poll_for_success_one_query_per_pass
    (service : nat -> http_outcome) (fuel : nat) :
  exists vs : list value,
    Forall nonterminal vs /\ observes service 0 vs /\
    let m := List.length vs in
    let (t, o) := poll_for_success service fuel in
    match o with
    | Returned r =>
        exists v, service m = Responds r /\ state_of r = inr v /\
                  in_end_states v = true /\
                  t = passes 0 vs ++ [Get m; Print v]
    | Raised e => observed service m = inl e /\ t = passes 0 vs ++ [Get m]
    | Running => m = fuel /\ t = passes 0 vs
    end.
Proof.
  destruct (poll_for_success_shape service fuel) as (vs & Hvs & Hobs & H).
  exists vs. split; [assumption|]. split; [assumption|].
  cbv zeta in H |- *.
  destruct (poll_for_success service fuel) as [t o].
  destruct o as [r|e|]; [|assumption..].
  destruct H as (v & Hsvc & Hv & Hend & Ht).
  exists v. rewrite (observed_of_response service _ r Hsvc) in Hv. auto.
Qed.

(** C8.  There is no bound on the number of polls: against a service
    every query of which answers with a non-terminal state, the call
    has, after any number [n] of passes, made [n] status queries and
    neither returned nor raised. *)
Theorem poll_for_success_polls_forever (service : nat -> http_outcome) :
  (forall k, exists v, observed service k = inr v /\ in_end_states v = false) ->
  forall n,
    snd (poll_for_success service n) = Running /\
    queries (fst (poll_for_success service n)) = n.
Proof.
  intros Hnever n.
  destruct (while_loop_keeps_running service Hnever n 0 _ initially_nonterminal)
    as (vs & Hlen & Hrun).
  unfold poll_for_success. rewrite Hrun. simpl.
  now rewrite queries_passes.
Qed.

Lemma poll_for_success_polls_forever_witness :
  snd (poll_for_success always_running 50) = Running /\
  queries (fst (poll_for_success always_running 50)) = 50.
Proof.
  apply (poll_for_success_polls_forever always_running).
  intros k. exists (JStr "running"). split; reflexivity.
Defined.

(** C10.  The initial state [''] is not an end state, so the loop body
    runs before anything else happens: a call that returns has made at
    least one status query and returns the response of one of its
    queries; a call that raises has made at least one query and raises
    what a query raised, never an unbound [r]; and a call that is still
    running after [fuel] passes has made [fuel] queries, so at least
    one as soon as one pass is followed. *)
Theorem poll_for_success_queries_before_returning
    (service : nat -> http_outcome) (fuel : nat) :
  in_end_states (JStr "") = false /\
  let (t, o) := poll_for_success service fuel in
  match o with
  | Returned r =>
      1 <= queries t /\ exists k, In (Get k) t /\ service k = Responds r
  | Raised e => 1 <= queries t /\ forall var, e <> UnboundLocalError var
  | Running => queries t = fuel /\ (1 <= fuel -> 1 <= queries t)
  end.
Proof.
  split; [reflexivity|].
  destruct (poll_for_success_shape service fuel) as (vs & _ & _ & H).
  cbv zeta in H.
  destruct (poll_for_success service fuel) as [t o].
  destruct o as [r|e|].
  - destruct H as (v & Hsvc & _ & _ & ->). split.
    + rewrite queries_app. unfold queries at 2. simpl. lia.
    + exists (List.length vs). split; [|assumption].
      apply in_or_app. right. now left.
  - destruct H as (He & ->). split.
    + rewrite queries_app. unfold queries at 2. simpl. lia.
    + intros var ->.
      destruct (observed_inl service _ _ He) as [[msg H]|[H|[H|H]]];
        discriminate.
  - destruct H as (Hlen & ->). rewrite queries_passes.
    split; [assumption|]. intros Hfuel. now rewrite Hlen.
Qed.

Lemma poll_for_success_queries_before_returning_witness :
  in_end_states (JStr "") = false /\
  let (t, o) := poll_for_success always_running 3 in
  match o with
  | Returned r =>
      1 <= queries t /\ exists k, In (Get k) t /\ always_running k = Responds r
  | Raised e => 1 <= queries t /\ forall var, e <> UnboundLocalError var
  | Running => queries t = 3 /\ (1 <= 3 -> 1 <= queries t)
  end.
Proof.
  apply (poll_for_success_queries_before_returning always_running 3).
Defined.

(** The results that come with the returned response are those of the
    fourth response of the stub. *)
Example results_of_fourth_response :
  match snd (poll_for_success queued_running_running_success 4) with
  | Returned r =>
      results_of r = inr (JList [artifact "basemaps-to-cloud/manifest.json"])
  | _ => False
  end.
Proof. reflexivity. Qed.

(** Five consecutive 'running' observations print five notifications. *)
Example five_running_notifications :
  printed (fst (poll_for_success always_running 5)) =
  [JStr "running"; JStr "running"; JStr "running"; JStr "running"; JStr "running"].
Proof. reflexivity. Qed.

(** * Further properties of the polling loop *)

Lemma total_slept_app (t1 t2 : list event) :
  total_slept (t1 ++ t2) = (total_slept t1 + total_slept t2)%Z.
Proof.
  induction t1 as [|ev t1 IH]; [reflexivity|].
  destruct ev; simpl; rewrite IH; lia.
Qed.

Lemma total_slept_passes (k : nat) (vs : list value) :
  total_slept (passes k vs) = (10 * Z.of_nat (List.length vs))%Z.
Proof.
  revert k. induction vs as [|v vs IH]; intros k; [reflexivity|].
  change (passes k (v :: vs)) with (pass k v ++ passes (S k) vs).
  rewrite total_slept_app, IH. simpl List.length. unfold pass. simpl total_slept.
  lia.
Qed.

Lemma queries_last_get (t : list event) (m : nat) (rest : list event) :
  filter is_get rest = [] ->
  queries (t ++ Get m :: rest) = S (queries t).
Proof.
  intros Hrest. rewrite queries_app. unfold queries. simpl. rewrite Hrest.
  simpl. lia.
Qed.

(** X1.  The call returns at the first terminal observation: when the
    queries 0 .. m-1 see non-terminal states and query m answers with a
    terminal one, every run allotted more than m passes returns the
    response of query m after m+1 queries, m+1 notifications and ten
    seconds of sleep for each of the m non-terminal ones. *)
Theorem poll_for_success_returns_first_terminal
    (service : nat -> http_outcome) (vs : list value) (v : value) (r : Response) :
  Forall nonterminal vs -> observes service 0 vs ->
  service (List.length vs) = Responds r ->
  state_of r = inr v -> in_end_states v = true ->
  forall fuel, List.length vs < fuel ->
    snd (poll_for_success service fuel) = Returned r /\
    queries (fst (poll_for_success service fuel)) = S (List.length vs) /\
    printed (fst (poll_for_success service fuel)) = vs ++ [v] /\
    total_slept (fst (poll_for_success service fuel)) =
      (10 * Z.of_nat (List.length vs))%Z.
Proof.
  intros Hvs Hobs Hsvc Hst Hend fuel Hfuel.
  rewrite (poll_for_success_completes service vs v r Hvs Hobs Hsvc Hst Hend fuel Hfuel).
  cbn [fst snd]. repeat split.
  - rewrite queries_last_get by reflexivity. now rewrite queries_passes.
  - rewrite printed_app, printed_passes. reflexivity.
  - rewrite total_slept_app, total_slept_passes. simpl. lia.
Qed.

Lemma poll_for_success_returns_first_terminal_witness :
  snd (poll_for_success running_running_success 9) = Returned manifest_response /\
  queries (fst (poll_for_success running_running_success 9)) = 3 /\
  printed (fst (poll_for_success running_running_success 9)) =
    [JStr "running"; JStr "running"] ++ [JStr "success"] /\
  total_slept (fst (poll_for_success running_running_success 9)) = 20%Z.
Proof.
  apply (poll_for_success_returns_first_terminal running_running_success
           [JStr "running"; JStr "running"] (JStr "success") manifest_response).
  - repeat constructor.
  - repeat constructor.
  - reflexivity.
  - reflexivity.
  - reflexivity.
  - simpl. lia.
Defined.

(** X2.  Sleep accounting: a call that has returned or raised slept ten
    seconds for each of its queries but the last, and a call still
    running slept ten seconds after each of its queries. *)
Theorem poll_for_success_sleep_accounting
    (service : nat -> http_outcome) (fuel : nat) :
  let (t, o) := poll_for_success service fuel in
  total_slept t =
  (10 * Z.of_nat (match o with
                  | Running => queries t
                  | _ => queries t - 1
                  end))%Z.
Proof.
  destruct (poll_for_success_shape service fuel) as (vs & _ & _ & H).
  cbv zeta in H.
  destruct (poll_for_success service fuel) as [t o].
  destruct o as [r|e|].
  - destruct H as (v & _ & _ & _ & ->).
    rewrite total_slept_app, total_slept_passes.
    rewrite queries_last_get by reflexivity. rewrite queries_passes.
    simpl. rewrite Nat.sub_0_r. lia.
  - destruct H as (_ & ->).
    rewrite total_slept_app, total_slept_passes.
    rewrite queries_last_get by reflexivity. rewrite queries_passes.
    simpl. rewrite Nat.sub_0_r. lia.
  - destruct H as (_ & ->).
    now rewrite total_slept_passes, queries_passes.
Qed.

Section StatusCode.

Variable service : nat -> http_outcome.
Variable g : Z -> Z.

Lemma observed_with_status (k : nat) :
  observed (fun i => with_status g (service i)) k = observed service k.
Proof.
  unfold observed. destruct (service k) as [msg|r]; reflexivity.
Qed.

Lemma while_loop_with_status (fuel : nat) :
  forall (k : nat) (l l' : locals),
    nonterminal (v_state l) -> nonterminal (v_state l') ->
    while_loop (fun i => with_status g (service i)) fuel k l =
    let (t, o) := while_loop service fuel k l' in
    (t, match o with
        | Returned r => Returned (mkResponse (g (status_code r)) (json_body r))
        | Raised e => Raised e
        | Running => Running
        end).
Proof.
  induction fuel as [|fuel IH]; intros k l l' Hl Hl'.
  - simpl. unfold nonterminal in *. now rewrite Hl, Hl'.
  - rewrite (while_loop_step _ fuel k l Hl), (while_loop_step _ fuel k l' Hl').
    rewrite observed_with_status.
    destruct (observed service k) as [e|state] eqn:Hobs; [reflexivity|].
    destruct (service k) as [msg|r] eqn:Hsvc; cbn [with_status]; [reflexivity|].
    destruct (in_end_states state) eqn:Hend; [reflexivity|].
    rewrite (IH (S k) (mkLocals state (Some (mkResponse (g (status_code r)) (json_body r))))
               (mkLocals state (Some r)) Hend Hend).
    now destruct (while_loop service fuel (S k) (mkLocals state (Some r))).
Qed.

End StatusCode.

(** X3.  [poll_for_success] never looks at the status code of a
    response: under any change of the status codes the run makes the
    same queries, prints the same notifications, sleeps the same and
    ends the same way, returning the response of the same query. *)
Theorem poll_for_success_ignores_status_code
    (service : nat -> http_outcome) (g : Z -> Z) (fuel : nat) :
  poll_for_success (fun k => with_status g (service k)) fuel =
  let (t, o) := poll_for_success service fuel in
  (t, match o with
      | Returned r => Returned (mkResponse (g (status_code r)) (json_body r))
      | Raised e => Raised e
      | Running => Running
      end).
Proof.
  unfold poll_for_success.
  apply while_loop_with_status; exact initially_nonterminal.
Qed.

(** X4.  What makes [poll_for_success] raise.  A call that raises ends
    with the query that failed, for which nothing is printed, and the
    exception is: the one of the request when it failed on the wire; a
    JSON decoding error when the body is not JSON; [KeyError('state')]
    when the body is an object without 'state'; a [TypeError] when the
    body is JSON of another kind. *)
Theorem poll_for_success_raise_causes
    (service : nat -> http_outcome) (fuel : nat) (t : list event) (e : exn) :
  poll_for_success service fuel = (t, Raised e) ->
  exists (m : nat) (t' : list event),
    t = t' ++ [Get m] /\ queries t = S m /\
    match service m with
    | Raises msg => e = RequestException msg
    | Responds r =>
        match json_body r with
        | None => e = JSONDecodeError
        | Some (JDict items) => assoc "state" items = None /\ e = KeyError "state"
        | Some _ => e = TypeError
        end
    end.
Proof.
  intros Hrun.
  destruct (poll_for_success_shape service fuel) as (vs & _ & _ & H).
  rewrite Hrun in H. destruct H as (He & ->).
  exists (List.length vs), (passes 0 vs). split; [reflexivity|].
  split; [rewrite queries_last_get by reflexivity; now rewrite queries_passes|].
  unfold observed, state_of, json in He.
  destruct (service (List.length vs)) as [msg|r]; [now injection He|].
  destruct (json_body r) as [body|]; simpl in He; [|now injection He].
  destruct body as [| | | | | |items]; simpl in He; try (now injection He).
  destruct (assoc "state" items); simpl in He; [discriminate|].
  split; [reflexivity|now injection He].
Qed.

Lemma poll_for_success_raise_causes_witness :
  exists (m : nat) (t' : list event),
    [Get 0] = t' ++ [Get m] /\ queries [Get 0] = S m /\
    match unauthorized m with
    | Raises msg => KeyError "state" = RequestException msg
    | Responds r =>
        match json_body r with
        | None => KeyError "state" = JSONDecodeError
        | Some (JDict items) =>
            assoc "state" items = None /\ KeyError "state" = KeyError "state"
        | Some _ => KeyError "state" = TypeError
        end
    end.
Proof.
  apply (poll_for_success_raise_causes unauthorized 5 [Get 0] (KeyError "state")).
  reflexivity.
Defined.

(** * Properties of the order submission *)

Lemma snd_bind {A B} (m : M A) (f : A -> M B) :
  snd (bind m f) =
  match snd m with
  | inl e => inl e
  | inr a => snd (f a)
  end.
Proof.
  destruct m as [t [e|a]]; simpl; [reflexivity|].
  now destruct (f a).
Qed.

(** The outcome of a POST is what the call met. *)
Lemma snd_session_post (api : value -> http_outcome) (p : value) :
  snd (session_post api p) =
  match api p with
  | Raises msg => inl (RequestException msg)
  | Responds resp => inr resp
  end.
Proof.
  unfold session_post.
  destruct (json_compliant p); simpl; now destruct (api p).
Qed.

(** The notebook's packet can be encoded when the credentials can. *)
Lemma order_params_compliant (GCP_CREDENTIALS : value) :
  json_compliant GCP_CREDENTIALS = true ->
  json_compliant (order_params GCP_CREDENTIALS) = true.
Proof. intros H. simpl. now rewrite H. Qed.

(** A payload that cannot be encoded is never posted. *)
Lemma session_post_refused (api : value -> http_outcome) (p : value) :
  json_compliant p = false -> fst (session_post api p) = [].
Proof.
  intros Hp. unfold session_post. rewrite Hp. simpl.
  now destruct (api p).
Qed.

(** X5.  [place_order] submits once: for an order packet that can be
    encoded as JSON (no infinite or NaN float in it), whatever the
    service does, the call makes exactly one POST, with the packet as
    it was given, and no other request, print or sleep. *)
Theorem place_order_posts_once (api : value -> http_outcome) (p : value) :
  json_compliant p = true ->
  fst (place_order api p) = [Post p].
Proof.
  intros Hp.
  unfold place_order, session_post, json, subscript, str_add. rewrite Hp.
  destruct (api p) as [msg|resp]; simpl; [reflexivity|].
  destruct (json_body resp) as [[| | | | | |items]|]; simpl; try reflexivity.
  destruct (assoc "id" items) as [[| | | | | |]|]; reflexivity.
Qed.

Lemma place_order_posts_once_witness :
  fst (place_order rejecting_api (order_params JNull)) =
  [Post (order_params JNull)].
Proof.
  apply (place_order_posts_once rejecting_api (order_params JNull)).
  reflexivity.
Defined.

(** X6.  [place_order] returns a URL exactly when the body of the
    response is a JSON object whose 'id' is a string, and the URL is
    then the orders URL, a slash and that id; the status code of the
    response plays no part. *)
Theorem place_order_returns_iff
    (api : value -> http_outcome) (p : value) (url : string) :
  snd (place_order api p) = inr url <->
  exists resp items id,
    api p = Responds resp /\
    json_body resp = Some (JDict items) /\
    assoc "id" items = Some (JStr id) /\
    url = ((ORDERS_API_URL ++ "/") ++ id)%string.
Proof.
  unfold place_order. rewrite snd_bind, snd_session_post.
  unfold json, subscript, str_add. split.
  - destruct (api p) as [msg|resp]; simpl; [discriminate|].
    destruct (json_body resp) as [body|] eqn:Hbody; simpl; [|discriminate].
    destruct body as [| | | | | |items]; simpl; try discriminate.
    destruct (assoc "id" items) as [id|] eqn:Hid; simpl; [|discriminate].
    destruct id as [| | | |id| |]; simpl; try discriminate.
    intros [= <-]. now exists resp, items, id.
  - intros (resp & items & id & -> & Hbody & Hid & ->). simpl.
    rewrite Hbody. simpl. rewrite Hid. reflexivity.
Qed.

Lemma place_order_returns_iff_witness :
  snd (place_order (accepting_api "25486588") (order_params JNull)) =
    inr "https://api.planet.com/compute/ops/orders/v2/25486588".
Proof.
  apply (proj2 (place_order_returns_iff (accepting_api "25486588")
                  (order_params JNull)
                  "https://api.planet.com/compute/ops/orders/v2/25486588")).
  exists (mkResponse 202 (Some (JDict [("id", JStr "25486588")]))),
         [("id", JStr "25486588")], "25486588".
  repeat split.
Defined.

(** X7.  What makes [place_order] raise: the exception of the request
    when it failed on the wire, a JSON decoding error for a body that
    is not JSON, [KeyError('id')] for an object without 'id', and a
    [TypeError] for a body that is no object or an id that is no
    string.  It is never an [HTTPError], and none of them holds the
    response. *)
Theorem place_order_raise_causes
    (api : value -> http_outcome) (p : value) (e : exn) :
  snd (place_order api p) = inl e ->
  (forall resp, e <> HTTPError resp) /\
  match api p with
  | Raises msg => e = RequestException msg
  | Responds resp =>
      match json_body resp with
      | None => e = JSONDecodeError
      | Some (JDict items) =>
          match assoc "id" items with
          | None => e = KeyError "id"
          | Some (JStr _) => False
          | Some _ => e = TypeError
          end
      | Some _ => e = TypeError
      end
  end.
Proof.
  unfold place_order. rewrite snd_bind, snd_session_post.
  unfold json, subscript, str_add.
  destruct (api p) as [msg|resp]; simpl.
  { intros [= <-]. split; [discriminate|reflexivity]. }
  destruct (json_body resp) as [body|]; simpl.
  2:{ intros [= <-]. split; [discriminate|reflexivity]. }
  destruct body as [| | | | | |items]; simpl;
    try (intros [= <-]; split; [discriminate|reflexivity]).
  destruct (assoc "id" items) as [id|]; simpl.
  2:{ intros [= <-]. split; [discriminate|reflexivity]. }
  destruct id; simpl; try discriminate;
    intros [= <-]; (split; [discriminate|reflexivity]).
Qed.

Lemma place_order_raise_causes_witness :
  (forall resp, KeyError "id" <> HTTPError resp) /\
  match rejecting_api (order_params JNull) with
  | Raises msg => KeyError "id" = RequestException msg
  | Responds resp =>
      match json_body resp with
      | None => KeyError "id" = JSONDecodeError
      | Some (JDict items) =>
          match assoc "id" items with
          | None => KeyError "id" = KeyError "id"
          | Some (JStr _) => False
          | Some _ => KeyError "id" = TypeError
          end
      | Some _ => KeyError "id" = TypeError
      end
  end.
Proof.
  apply (place_order_raise_causes rejecting_api (order_params JNull) (KeyError "id")).
  reflexivity.
Defined.

(** X8.  The cell that posts the second order packet checks the status:
    for a packet that can be encoded as JSON (no infinite or NaN float
    in it) it makes one POST; a response with a status below 400 gives
    its decoded body (or a JSON decoding error); a 4xx or 5xx response
    raises an [HTTPError] that holds the response; and a status of 600
    or more leaves [basemaps] as it was. *)
Theorem send_request_checks_status
    (api : value -> http_outcome) (p basemaps : value) :
  json_compliant p = true ->
  fst (send_request api p basemaps) = [Post p] /\
  snd (send_request api p basemaps) =
  match api p with
  | Raises msg => inl (RequestException msg)
  | Responds resp =>
      if (status_code resp <? 400)%Z then
        match json_body resp with
        | Some body => inr body
        | None => inl JSONDecodeError
        end
      else if (status_code resp <? 600)%Z then inl (HTTPError resp)
      else inr basemaps
  end.
Proof.
  intros Hp.
  unfold send_request, session_post, raise_for_status, json. rewrite Hp.
  destruct (api p) as [msg|resp]; simpl; [split; reflexivity|].
  destruct (Z.ltb_spec (status_code resp) 400) as [Hlt|Hge].
  - destruct (json_body resp); split; reflexivity.
  - destruct (Z.leb_spec 400 (status_code resp)) as [_|Hlt]; [|lia].
    destruct (status_code resp <? 600)%Z; split; reflexivity.
Qed.

Lemma send_request_checks_status_witness :
  fst (send_request rejecting_api (order_params JNull) JNull) =
    [Post (order_params JNull)] /\
  snd (send_request rejecting_api (order_params JNull) JNull) =
    inl (HTTPError rejection).
Proof.
  apply (send_request_checks_status rejecting_api (order_params JNull) JNull).
  reflexivity.
Defined.

(** * Listing results and quad ids *)

Lemma subscript_silent (v : value) (key : string) : fst (subscript v key) = [].
Proof.
  destruct v as [| | | | | |items]; try reflexivity.
  simpl. now destruct (assoc key items).
Qed.

Lemma subscript_eta (v : value) (key : string) :
  subscript v key = ([], snd (subscript v key)).
Proof.
  rewrite <- (subscript_silent v key). now destruct (subscript v key).
Qed.

(** A comprehension emits nothing. *)
Lemma comprehension_silent (key : string) (items : list value) :
  fst (comprehension key items) = [].
Proof.
  induction items as [|x rest IH]; [reflexivity|].
  simpl. rewrite (subscript_eta x key).
  destruct (snd (subscript x key)) as [e|y]; simpl; [reflexivity|].
  destruct (comprehension key rest) as [t [e|ys]]; simpl in *; now subst.
Qed.

(** It succeeds exactly when every item has the key, and then yields
    the values found, one per item and in the order of the items. *)
Lemma comprehension_spec (key : string) (items ys : list value) :
  snd (comprehension key items) = inr ys <->
  Forall2 (fun x y => snd (subscript x key) = inr y) items ys.
Proof.
  revert ys. induction items as [|x rest IH]; intros ys.
  - simpl. split.
    + intros [= <-]. constructor.
    + intros H. inversion H. reflexivity.
  - simpl. rewrite (subscript_eta x key).
    destruct (snd (subscript x key)) as [e|y] eqn:Hx; simpl.
    + split; [discriminate|]. intros H. inversion H; subst. congruence.
    + destruct (comprehension key rest) as [t [e|ys']] eqn:Hrest; simpl in *.
      * split; [discriminate|]. intros H. inversion H as [|? y' ? ys2 ? Hr]; subst.
        apply IH in Hr. discriminate.
      * split.
        -- intros [= <-]. constructor; [assumption|]. now apply IH.
        -- intros H. inversion H as [|? y' ? ys2 Hy Hr]; subst.
           apply IH in Hr. congruence.
Qed.

(** The first item without the key decides the exception. *)
Lemma comprehension_first_error
    (key : string) (good : list value) (bad : value) (rest : list value) (e : exn) :
  Forall (fun x => exists y, snd (subscript x key) = inr y) good ->
  snd (subscript bad key) = inl e ->
  comprehension key (good ++ bad :: rest) = ([], inl e).
Proof.
  intros Hgood Hbad. induction Hgood as [|x good (y & Hy) _ IH]; simpl.
  - rewrite (subscript_eta bad key), Hbad. reflexivity.
  - rewrite (subscript_eta x key), Hy. simpl. rewrite IH. reflexivity.
Qed.

Lemma strings_of_strings (names : list string) :
  strings_of (map JStr names) = Some names.
Proof.
  induction names as [|s names IH]; [reflexivity|].
  simpl. now rewrite IH.
Qed.

Lemma results_of_inr (r : Response) (results : value) :
  results_of r = inr results ->
  exists fields links,
    json_body r = Some (JDict fields) /\
    assoc "_links" fields = Some (JDict links) /\
    assoc "results" links = Some results.
Proof.
  unfold results_of, json.
  destruct (json_body r) as [body|]; simpl; [|discriminate].
  destruct body as [| | | | | |fields]; simpl; try discriminate.
  destruct (assoc "_links" fields) as [links|] eqn:Hlinks; simpl; [|discriminate].
  destruct links as [| | | | | |links]; simpl; try discriminate.
  destruct (assoc "results" links) as [x|] eqn:Hresults; simpl; [|discriminate].
  intros [= <-]. now exists fields, links.
Qed.

(** The listing of a response whose results all have a string name. *)
Lemma show_results_names (r : Response) (items : list value) (names : list string) :
  results_of r = inr (JList items) ->
  Forall2 (fun item name => snd (subscript item "name") = inr (JStr name))
          items names ->
  show_results r = ([Print (JStr (String.concat newline names))], inr tt).
Proof.
  intros Hres Hnames.
  destruct (results_of_inr r _ Hres) as (fields & links & Hbody & Hlinks & Hresults).
  assert (Hcomp : comprehension "name" items = ([], inr (map JStr names))).
  { rewrite (surjective_pairing (comprehension "name" items)).
    rewrite comprehension_silent. f_equal.
    apply comprehension_spec.
    clear -Hnames. induction Hnames; simpl; constructor; assumption. }
  unfold show_results, json, join. rewrite Hbody. simpl.
  rewrite Hlinks. simpl. rewrite Hresults. simpl.
  rewrite Hcomp. simpl. rewrite strings_of_strings. reflexivity.
Qed.

(** X9.  Once the order is in a terminal state, whichever of the three,
    the listing cell prints, after the states of its own poll, one more
    value: the names of the results, in the order of the response,
    joined by newlines (an empty line for no results). *)
Theorem results_cell_prints_names
    (service : nat -> http_outcome) (vs : list value) (v : value) (r : Response)
    (items : list value) (names : list string) :
  Forall nonterminal vs -> observes service 0 vs ->
  service (List.length vs) = Responds r ->
  state_of r = inr v -> in_end_states v = true ->
  results_of r = inr (JList items) ->
  Forall2 (fun item name => snd (subscript item "name") = inr (JStr name))
          items names ->
  forall fuel, List.length vs < fuel ->
    snd (results_cell service fuel) = Returned tt /\
    printed (fst (results_cell service fuel)) =
      vs ++ [v; JStr (String.concat newline names)].
Proof.
  intros Hvs Hobs Hsvc Hst Hend Hres Hnames fuel Hfuel.
  unfold results_cell.
  rewrite (poll_for_success_completes service vs v r Hvs Hobs Hsvc Hst Hend fuel Hfuel).
  rewrite (show_results_names r items names Hres Hnames).
  cbn [fst snd]. split; [reflexivity|].
  rewrite !printed_app, printed_passes. simpl. now rewrite <- app_assoc.
Qed.

Lemma results_cell_prints_names_witness :
  snd (results_cell queued_running_running_success 4) = Returned tt /\
  printed (fst (results_cell queued_running_running_success 4)) =
    [JStr "queued"; JStr "running"; JStr "running"] ++
    [JStr "success";
     JStr (String.concat newline ["basemaps-to-cloud/manifest.json"])].
Proof.
  apply (results_cell_prints_names queued_running_running_success
           [JStr "queued"; JStr "running"; JStr "running"] (JStr "success")
           manifest_response
           [artifact "basemaps-to-cloud/manifest.json"]
           ["basemaps-to-cloud/manifest.json"]).
  - repeat constructor.
  - repeat constructor.
  - reflexivity.
  - reflexivity.
  - reflexivity.
  - reflexivity.
  - repeat constructor.
  - simpl. lia.
Defined.

(** The two ways the listing lines can go. *)
Lemma show_results_cases (r : Response) :
  (exists text, show_results r = ([Print (JStr text)], inr tt)) \/
  (exists e, show_results r = ([], inl e)).
Proof.
  unfold show_results, json.
  destruct (json_body r) as [body|]; simpl; [|right; eauto].
  rewrite (subscript_eta body "_links").
  destruct (snd (subscript body "_links")) as [e|links]; simpl; [right; eauto|].
  rewrite (subscript_eta links "results").
  destruct (snd (subscript links "results")) as [e|results]; simpl; [right; eauto|].
  assert (Hiter : (exists items, iterate results = ([], inr items)) \/
                  iterate results = ([], inl TypeError)).
  { destruct results; simpl; try (right; reflexivity); left; eexists; reflexivity. }
  destruct Hiter as [[items ->]| ->]; simpl; [|right; eauto].
  rewrite (surjective_pairing (comprehension "name" items)).
  rewrite comprehension_silent.
  destruct (snd (comprehension "name" items)) as [e|names]; simpl; [right; eauto|].
  unfold join. destruct (strings_of names) as [ss|]; simpl; [left|right]; eauto.
Qed.

(** X10.  The listing is all or nothing: the lines that list the
    results of a response either print exactly one value, a string, and
    succeed, or print nothing and raise. *)
Theorem show_results_all_or_nothing (r : Response) :
  match show_results r with
  | (t, inr _) => exists text, t = [Print (JStr text)]
  | (t, inl _) => t = []
  end.
Proof.
  destruct (show_results_cases r) as [[text ->]|[e ->]]; [now exists text|reflexivity].
Qed.

(** X11.  A result without a name spoils the listing: when the results
    up to some item have a 'name' and that item is an object without
    one, the lines raise [KeyError('name')] and print none of the
    names found before it. *)
Theorem show_results_missing_name
    (r : Response) (good : list value) (fields : list (string * value))
    (rest : list value) :
  results_of r = inr (JList (good ++ JDict fields :: rest)) ->
  Forall (fun x => exists y, snd (subscript x "name") = inr y) good ->
  assoc "name" fields = None ->
  show_results r = ([], inl (KeyError "name")).
Proof.
  intros Hres Hgood Hnone.
  destruct (results_of_inr r _ Hres) as (fs & links & Hbody & Hlinks & Hresults).
  unfold show_results, json. rewrite Hbody. simpl.
  rewrite Hlinks. simpl. rewrite Hresults. simpl.
  rewrite (comprehension_first_error "name" good (JDict fields) rest (KeyError "name")).
  - reflexivity.
  - assumption.
  - simpl. now rewrite Hnone.
Qed.

Lemma show_results_missing_name_witness :
  show_results
    (status_response "partial"
       [artifact "a.tif"; JDict [("location", JStr "gs://b")]; artifact "c.tif"]) =
  ([], inl (KeyError "name")).
Proof.
  apply (show_results_missing_name _ [artifact "a.tif"]
           [("location", JStr "gs://b")] [artifact "c.tif"]).
  - reflexivity.
  - repeat constructor. now exists (JStr "a.tif").
  - reflexivity.
Defined.

(** X12.  The quad ids are the 'id' of each item of the quads response,
    one per item and in the same order, and there are quad ids only
    when every item has an 'id'. *)
Theorem quad_ids_of_spec
    (resp : Response) (fields : list (string * value)) (items ids : list value) :
  json_body resp = Some (JDict fields) ->
  assoc "items" fields = Some (JList items) ->
  (quad_ids_of resp = ([], inr ids) <->
   Forall2 (fun item id => snd (subscript item "id") = inr id) items ids) /\
  (quad_ids_of resp = ([], inr ids) -> List.length ids = List.length items).
Proof.
  intros Hbody Hitems.
  assert (Hrun : quad_ids_of resp = ([], snd (comprehension "id" items))).
  { unfold quad_ids_of, json. rewrite Hbody. simpl. rewrite Hitems. simpl.
    rewrite (surjective_pairing (comprehension "id" items)).
    now rewrite comprehension_silent. }
  assert (Hiff : quad_ids_of resp = ([], inr ids) <->
                 Forall2 (fun item id => snd (subscript item "id") = inr id) items ids).
  { rewrite Hrun. rewrite <- comprehension_spec. split.
    - now intros [= ->].
    - now intros ->. }
  split; [exact Hiff|].
  intros H. apply Hiff in H. symmetry. exact (Forall2_length H).
Qed.

Lemma quad_ids_of_spec_witness :
  (quad_ids_of (quads_response ["1165-1222"; "1165-1223"]) =
     ([], inr [JStr "1165-1222"; JStr "1165-1223"]) <->
   Forall2 (fun item id => snd (subscript item "id") = inr id)
     [JDict [("id", JStr "1165-1222"); ("percent_covered", JInt 100)];
      JDict [("id", JStr "1165-1223"); ("percent_covered", JInt 100)]]
     [JStr "1165-1222"; JStr "1165-1223"]) /\
  (quad_ids_of (quads_response ["1165-1222"; "1165-1223"]) =
     ([], inr [JStr "1165-1222"; JStr "1165-1223"]) ->
   List.length [JStr "1165-1222"; JStr "1165-1223"] =
   List.length
     [JDict [("id", JStr "1165-1222"); ("percent_covered", JInt 100)];
      JDict [("id", JStr "1165-1223"); ("percent_covered", JInt 100)]]).
Proof.
  apply (quad_ids_of_spec (quads_response ["1165-1222"; "1165-1223"])
           [("items",
             JList [JDict [("id", JStr "1165-1222"); ("percent_covered", JInt 100)];
                    JDict [("id", JStr "1165-1223"); ("percent_covered", JInt 100)]])]).
  - reflexivity.
  - reflexivity.
Defined.

